(** * The colour picker hook of the canvas

    A shallow embedding of
    [frontend/src/features/canvas/hooks/useColorUnderCursor.ts]:
    the React hook [useColorPicker], which looks up the Konva stage and the
    base layer of the canvas and returns two closures,
    [updateColorUnderCursor] (sample the pixel under the pointer and dispatch
    it to the store) and [commitColorUnderCursor] (dispatch the commit
    action).

    JavaScript numbers are IEEE-754 doubles and are modelled by Rocq's
    primitive floats; bytes of a [Uint8ClampedArray] are integers.  The
    effects of the hook (the process-wide Konva handles, the pointer
    position held by the stage object, the canvas context that is read,
    the redux store) are threaded through a small state-and-exception
    monad over a [World], which also records the trace of the calls made
    on the collaborators. *)

From Stdlib Require Import ZArith List String Bool.
From Stdlib Require Import Floats.PrimFloat.
Import ListNotations.

Set Implicit Arguments.

(** ** Data *)

(** A JavaScript [number]. *)
Definition number := float.

(** What array destructuring binds to a name: the element at that index,
    or [undefined] when the array is shorter. *)
Inductive element : Type :=
| Undefined
| Num (n : Z).

(** [Vector2d] of Konva: what [stage.getPointerPosition()] returns. *)
Record Vector2d : Type := { x : number; y : number }.

(** The payload of [setColorPickerColor]: the object literal
    [{ r, g, b, a }]. *)
Record RgbaColor : Type := { r : element; g : element; b : element; a : element }.

(** [ImageData]: only its [data] field, the bytes of the region read in
    the order R, G, B, A per pixel, is used by the hook. *)
Record ImageData : Type := { data : list Z }.

(** The two action creators imported from [../store/canvasSlice]. *)
Inductive action : Type :=
| setColorPickerColor (payload : RgbaColor)
| commitColorPickerColor.

(** Objects are held by reference: a stage or a layer is an identity, and
    what it currently reports lives in the world. *)
Definition StageRef := nat.
Definition LayerRef := nat.

(** A call either returns or throws. *)
Inductive completion (A : Type) : Type :=
| Normal (v : A)
| Throw (e : string).
Arguments Throw {A} e.

(** Calls made on the collaborators, in the order they happen. *)
Inductive event : Type :=
| GetCanvasBaseLayer
| GetCanvasStage
| GetPointerPosition (s : StageRef)
| GetImageData (l : LayerRef) (sx sy sw sh : number)
| Dispatch (act : action).

(** ** The world the hook runs in *)

Section Hook.

(** The state of the redux store and its root reducer. *)
Context {State : Type}.
Variable reducer : State -> action -> State.

Record World : Type := {
  (** the stage held by [konvaInstanceProvider] at the moment *)
  canvasStage : option StageRef;
  (** the base layer held by [konvaInstanceProvider] at the moment *)
  canvasBaseLayer : option LayerRef;
  (** what each stage object answers to [getPointerPosition()] *)
  pointerPosition : StageRef -> option Vector2d;
  (** what the 2D context of each layer answers to [getImageData] *)
  imageData : LayerRef -> number -> number -> number -> number ->
              completion ImageData;
  (** [Konva.pixelRatio] *)
  pixelRatio : number;
  (** the redux store *)
  store : State;
  (** the calls made so far *)
  trace : list event
}.

Definition log (e : event) (w : World) : World :=
  {| canvasStage := canvasStage w;
     canvasBaseLayer := canvasBaseLayer w;
     pointerPosition := pointerPosition w;
     imageData := imageData w;
     pixelRatio := pixelRatio w;
     store := store w;
     trace := trace w ++ [e] |}.

Definition reduce (act : action) (w : World) : World :=
  {| canvasStage := canvasStage w;
     canvasBaseLayer := canvasBaseLayer w;
     pointerPosition := pointerPosition w;
     imageData := imageData w;
     pixelRatio := pixelRatio w;
     store := reducer (store w) act;
     trace := trace w |}.

(** Replacing the handles held by [konvaInstanceProvider] (the canvas is
    mounted, unmounted or rebuilt). *)
Definition setProvider (st : option StageRef) (ly : option LayerRef)
           (w : World) : World :=
  {| canvasStage := st;
     canvasBaseLayer := ly;
     pointerPosition := pointerPosition w;
     imageData := imageData w;
     pixelRatio := pixelRatio w;
     store := store w;
     trace := trace w |}.

(** ** A state-and-exception monad *)

Definition M (A : Type) : Type := World -> completion A * World.

Definition ret {A : Type} (v : A) : M A := fun w => (Normal v, w).

Definition bind {A B : Type} (m : M A) (k : A -> M B) : M B :=
  fun w =>
    match m w with
    | (Normal v, w') => k v w'
    | (Throw e, w') => (Throw e, w')
    end.

(** The completion of a computation and the world it leaves. *)
Definition result {A : Type} (m : M A) (w : World) : completion A := fst (m w).
Definition after {A : Type} (m : M A) (w : World) : World := snd (m w).

(** ** The collaborators *)

(** [getCanvasBaseLayer()] and [getCanvasStage()] of
    [../util/konvaInstanceProvider]. *)
Definition getCanvasBaseLayer : M (option LayerRef) :=
  fun w => (Normal (canvasBaseLayer w), log GetCanvasBaseLayer w).

Definition getCanvasStage : M (option StageRef) :=
  fun w => (Normal (canvasStage w), log GetCanvasStage w).

(** [stage.getPointerPosition()]. *)
Definition getPointerPosition (s : StageRef) : M (option Vector2d) :=
  fun w => (Normal (pointerPosition w s), log (GetPointerPosition s) w).

(** Reading [Konva.pixelRatio]. *)
Definition Konva_pixelRatio : M number :=
  fun w => (Normal (pixelRatio w), w).

(** [layer.getContext().getImageData(sx, sy, sw, sh)]. *)
Definition getImageData (l : LayerRef) (sx sy sw sh : number) : M ImageData :=
  fun w => (imageData w l sx sy sw sh, log (GetImageData l sx sy sw sh) w).

(** [dispatch(action)]: the store runs its reducer on the action. *)
Definition dispatch (act : action) : M unit :=
  fun w => (Normal tt, log (Dispatch act) (reduce act w)).

(** The [i]-th name of an array destructuring pattern. *)
Definition item (d : list Z) (i : nat) : element :=
  match nth_error d i with
  | Some n => Num n
  | None => Undefined
  end.

(** ** The hook *)

Record ColorPicker : Type := {
  updateColorUnderCursor : M unit;
  commitColorUnderCursor : M unit
}.

Declare Scope hook_scope.
Notation "v <- m ;; k" := (bind m (fun v => k))
  (at level 100, m at next level, right associativity) : hook_scope.
Local Open Scope hook_scope.

Definition useColorPicker : M ColorPicker :=
  canvasBaseLayer <- getCanvasBaseLayer ;;
  stage <- getCanvasStage ;;
  ret {|
    updateColorUnderCursor :=
      match stage, canvasBaseLayer with
      | Some stage, Some canvasBaseLayer =>
          position <- getPointerPosition stage ;;
          match position with
          | None => ret tt
          | Some position =>
              pixelRatio <- Konva_pixelRatio ;;
              image <- getImageData canvasBaseLayer
                         (x position * pixelRatio)%float
                         (y position * pixelRatio)%float
                         1%float
                         1%float ;;
              let d := data image in
              dispatch (setColorPickerColor
                          {| r := item d 0; g := item d 1;
                             b := item d 2; a := item d 3 |})
          end
      | _, _ => ret tt
      end;
    commitColorUnderCursor :=
      dispatch commitColorPickerColor
  |}.

End Hook.

Arguments World : clear implicits.
Arguments M : clear implicits.
Arguments ColorPicker : clear implicits.

(** ** Reading a trace *)

(** The pixel reads requested, with the layer and the four arguments. *)
Definition reads (t : list event)
  : list (LayerRef * number * number * number * number) :=
  flat_map (fun e => match e with
                     | GetImageData l sx sy sw sh => [(l, sx, sy, sw, sh)]
                     | _ => []
                     end) t.

(** The actions dispatched to the store. *)
Definition dispatched (t : list event) : list action :=
  flat_map (fun e => match e with
                     | Dispatch act => [act]
                     | _ => []
                     end) t.

(** The lookups of the process-wide stage and layer handles. *)
Definition lookups (t : list event) : list event :=
  flat_map (fun e => match e with
                     | GetCanvasBaseLayer => [GetCanvasBaseLayer]
                     | GetCanvasStage => [GetCanvasStage]
                     | _ => []
                     end) t.

(** ** The colour picker state held by the store *)

(** Modelled from the spec: the part of the state of [store/canvasSlice]
    (imported by the hook, not among the sources) that the colour picker
    uses: a live [preview] colour and a durable [committed] colour, each
    absent until first set. *)
Record ColorPickerState : Type := {
  preview : option RgbaColor;
  committed : option RgbaColor
}.

(** Modelled from the spec: the initial state of [store/canvasSlice];
    both slots start unset. *)
Definition initialState : ColorPickerState :=
  {| preview := None; committed := None |}.

(** Modelled from the spec: the reducer case of [store/canvasSlice] for
    [setColorPickerColor]; it overwrites [preview] with the payload,
    unconditionally. *)
Definition updatePreview (color : RgbaColor) (s : ColorPickerState)
  : ColorPickerState :=
  {| preview := Some color; committed := committed s |}.

(** Modelled from the spec: the reducer case of [store/canvasSlice] for
    [commitColorPickerColor]; it copies the current [preview] into
    [committed], and does nothing while [preview] is absent. *)
Definition commit (s : ColorPickerState) : ColorPickerState :=
  match preview s with
  | Some color => {| preview := preview s; committed := Some color |}
  | None => s
  end.

(** Modelled from the spec: the reducer of [store/canvasSlice] on the two
    actions the hook dispatches. *)
Definition canvasReducer (s : ColorPickerState) (act : action)
  : ColorPickerState :=
  match act with
  | setColorPickerColor color => updatePreview color s
  | commitColorPickerColor => commit s
  end.

(** The states the store can be in: the initial one, and those reached
    from it by dispatching actions. *)
Inductive reachable : ColorPickerState -> Prop :=
| reachable_init : reachable initialState
| reachable_step s act : reachable s -> reachable (canvasReducer s act).

(** ** Canvases used in the scenarios *)

Module Scenario.

Local Open Scope float_scope.

(** A mounted canvas at pixel ratio 2: the pointer is at (10, 20), the
    pixel of the base layer at (20, 40) is (255, 0, 128, 255) and every
    other pixel is transparent black. *)
Definition mounted : World ColorPickerState :=
  {| canvasStage := Some 0%nat;
     canvasBaseLayer := Some 0%nat;
     pointerPosition := fun _ => Some {| x := 10; y := 20 |};
     imageData := fun _ sx sy _ _ =>
       if (sx =? 20) && (sy =? 40)
       then Normal {| data := [255; 0; 128; 255]%Z |}
       else Normal {| data := [0; 0; 0; 0]%Z |};
     pixelRatio := 2;
     store := initialState;
     trace := [] |}.

(** The same canvas before it is mounted: the provider holds neither a
    stage nor a base layer yet. *)
Definition unmounted : World ColorPickerState :=
  setProvider None None mounted.

(** A canvas with the pointer just left of the stage, so that the
    physical coordinates are (-1, 5); here a read outside the buffer
    yields transparent black. *)
Definition lenient : World ColorPickerState :=
  {| canvasStage := Some 0%nat;
     canvasBaseLayer := Some 0%nat;
     pointerPosition := fun _ => Some {| x := -1; y := 5 |};
     imageData := fun _ sx sy _ _ =>
       if (sx <? 0) || (sy <? 0)
       then Normal {| data := [0; 0; 0; 0]%Z |}
       else Normal {| data := [255; 255; 255; 255]%Z |};
     pixelRatio := 1;
     store := initialState;
     trace := [] |}.

(** The same pointer over a layer whose context rejects a read outside
    its buffer. *)
Definition strict : World ColorPickerState :=
  {| canvasStage := Some 0%nat;
     canvasBaseLayer := Some 0%nat;
     pointerPosition := fun _ => Some {| x := -1; y := 5 |};
     imageData := fun _ sx sy _ _ =>
       if (sx <? 0) || (sy <? 0)
       then Throw "IndexSizeError"
       else Normal {| data := [255; 255; 255; 255]%Z |};
     pixelRatio := 1;
     store := initialState;
     trace := [] |}.

End Scenario.


(** ** What a call may touch *)

(** Two worlds show the same canvas: the same handles in the provider, the
    same pointer positions, the same pixels and the same pixel ratio. *)
Definition sameCanvas {State : Type} (w w' : World State) : Prop :=
  canvasStage w' = canvasStage w /\
  canvasBaseLayer w' = canvasBaseLayer w /\
  pointerPosition w' = pointerPosition w /\
  imageData w' = imageData w /\
  pixelRatio w' = pixelRatio w.

(** An element of a [Uint8ClampedArray]. *)
Definition uint8 (n : Z) : bool := ((0 <=? n) && (n <=? 255))%Z.

(** ** Layers answering with more or fewer bytes *)

Module Mock.

Local Open Scope float_scope.

(** The read answers with the bytes of two pixels. *)
Definition wide : World ColorPickerState :=
  {| canvasStage := Some 0%nat;
     canvasBaseLayer := Some 0%nat;
     pointerPosition := fun _ => Some {| x := 10; y := 20 |};
     imageData := fun _ _ _ _ _ =>
       Normal {| data := [1; 2; 3; 4; 5; 6; 7; 8]%Z |};
     pixelRatio := 2;
     store := initialState;
     trace := [] |}.

(** The read answers with two bytes only. *)
Definition narrow : World ColorPickerState :=
  {| canvasStage := Some 0%nat;
     canvasBaseLayer := Some 0%nat;
     pointerPosition := fun _ => Some {| x := 10; y := 20 |};
     imageData := fun _ _ _ _ _ => Normal {| data := [9; 8]%Z |};
     pixelRatio := 2;
     store := initialState;
     trace := [] |}.

(** The canvas of [Scenario.mounted] repainted everywhere but at the pixel
    (20, 40). *)
Definition repainted : World ColorPickerState :=
  {| canvasStage := Some 0%nat;
     canvasBaseLayer := Some 0%nat;
     pointerPosition := fun _ => Some {| x := 10; y := 20 |};
     imageData := fun _ sx sy _ _ =>
       if (sx =? 20) && (sy =? 40)
       then Normal {| data := [255; 0; 128; 255]%Z |}
       else Normal {| data := [7; 7; 7; 7]%Z |};
     pixelRatio := 2;
     store := initialState;
     trace := [] |}.

(** A stage that reports no pointer position. *)
Definition pointerless : World ColorPickerState :=
  {| canvasStage := Some 0%nat;
     canvasBaseLayer := Some 0%nat;
     pointerPosition := fun _ => None;
     imageData := fun _ _ _ _ _ => Normal {| data := [1; 2; 3; 4]%Z |};
     pixelRatio := 2;
     store := initialState;
     trace := [] |}.

End Mock.


(** * Properties *)

(** ** Traces *)

Lemma reads_app (t u : list event) : reads (t ++ u) = reads t ++ reads u.
Proof. apply flat_map_app. Qed.

Lemma dispatched_app (t u : list event) :
  dispatched (t ++ u) = dispatched t ++ dispatched u.
Proof. apply flat_map_app. Qed.

Lemma lookups_app (t u : list event) :
  lookups (t ++ u) = lookups t ++ lookups u.
Proof. apply flat_map_app. Qed.

(** [hooked H] replaces the picker of [H : useColorPicker _ w0 = (Normal
    picker, w0')] by the closures the hook built in [w0]. *)
Ltac hooked H :=
  unfold useColorPicker, bind, getCanvasBaseLayer, getCanvasStage, ret in H;
  cbn beta iota in H;
  injection H as <- <-.

(** Runs the primitives of a closure body. *)
Ltac step :=
  unfold result, after, bind, ret, getPointerPosition, Konva_pixelRatio,
    getImageData, dispatch;
  cbn [updateColorUnderCursor commitColorUnderCursor fst snd
       canvasStage canvasBaseLayer pointerPosition imageData pixelRatio
       store trace log reduce setProvider].

Ltac traces :=
  rewrite ?reads_app, ?dispatched_app, ?lookups_app; cbn [reads dispatched lookups flat_map app];
  rewrite ?app_nil_r.

(** ** The hook on any store *)

Section HookFacts.

Context {State : Type}.
Variable reducer : State -> action -> State.

(** The hook always returns: it looks both handles up, the base layer
    first, and throws nothing. *)
Lemma useColorPicker_returns (w0 : World State) :
  exists picker,
    useColorPicker reducer w0 =
      (Normal picker, log GetCanvasStage (log GetCanvasBaseLayer w0)).
Proof. eexists. reflexivity. Qed.

(** C1: a sampling call made with a stage and a base layer, while the stage
    reports the pointer at [pos], requests exactly one pixel read: from the
    context of that layer, of width 1 and height 1, at
    [(x pos * pixelRatio, y pos * pixelRatio)], the products being passed
    as they are, neither rounded nor shifted. *)
Theorem sample_reads_scaled_position
  (w0 w0' w : World State) (picker : ColorPicker State)
  (s : StageRef) (l : LayerRef) (pos : Vector2d) :
  useColorPicker reducer w0 = (Normal picker, w0') ->
  canvasStage w0 = Some s ->
  canvasBaseLayer w0 = Some l ->
  pointerPosition w s = Some pos ->
  reads (trace (after (updateColorUnderCursor picker) w)) =
    reads (trace w) ++
    [(l, (x pos * pixelRatio w)%float, (y pos * pixelRatio w)%float,
      1%float, 1%float)].
Proof.
  intros Hhook Hs Hl Hpos. hooked Hhook.
  cbn [updateColorUnderCursor canvasStage canvasBaseLayer log].
  rewrite Hs, Hl. step. rewrite Hpos. step.
  destruct (imageData w l _ _ _ _); step; traces; reflexivity.
Qed.

(** C2, as the hook has it: the sampling call checks no bounds and handles
    no error of the read.  Whatever the physical coordinates are, also
    outside the backing buffer, the outcome is the one of the read of the
    layer: when the read returns transparent black the colour dispatched is
    (0, 0, 0, 0) and nothing is thrown; when the read throws, the same
    error leaves the sampling call, nothing is dispatched and the store is
    as it was. *)
Theorem sample_forwards_read_outcome
  (w0 w0' w : World State) (picker : ColorPicker State)
  (s : StageRef) (l : LayerRef) (pos : Vector2d) :
  useColorPicker reducer w0 = (Normal picker, w0') ->
  canvasStage w0 = Some s ->
  canvasBaseLayer w0 = Some l ->
  pointerPosition w s = Some pos ->
  let read :=
    imageData w l (x pos * pixelRatio w)%float (y pos * pixelRatio w)%float
              1%float 1%float in
  let w' := after (updateColorUnderCursor picker) w in
  (read = Normal {| data := [0; 0; 0; 0]%Z |} ->
     result (updateColorUnderCursor picker) w = Normal tt /\
     dispatched (trace w') =
       dispatched (trace w) ++
       [setColorPickerColor
          {| r := Num 0; g := Num 0; b := Num 0; a := Num 0 |}])
  /\
  (forall e, read = Throw e ->
     result (updateColorUnderCursor picker) w = Throw e /\
     dispatched (trace w') = dispatched (trace w) /\
     store w' = store w).
Proof.
  intros Hhook Hs Hl Hpos. hooked Hhook.
  cbn [updateColorUnderCursor canvasStage canvasBaseLayer log].
  rewrite Hs, Hl. cbv zeta. step. rewrite Hpos. step.
  split.
  - intros ->. step. traces. split; reflexivity.
  - intros e ->. step. traces. repeat split; reflexivity.
Qed.

(** C3: when the hook found no stage, or no base layer, or when the stage
    reports no pointer position, the sampling call returns normally, reads
    no pixel, dispatches nothing and leaves the store, hence the preview
    colour in it, as it was. *)
Theorem idle_sample_is_noop
  (w0 w0' w : World State) (picker : ColorPicker State) :
  useColorPicker reducer w0 = (Normal picker, w0') ->
  canvasStage w0 = None \/
  canvasBaseLayer w0 = None \/
  (exists s, canvasStage w0 = Some s /\ pointerPosition w s = None) ->
  result (updateColorUnderCursor picker) w = Normal tt /\
  store (after (updateColorUnderCursor picker) w) = store w /\
  reads (trace (after (updateColorUnderCursor picker) w)) = reads (trace w) /\
  dispatched (trace (after (updateColorUnderCursor picker) w)) =
    dispatched (trace w).
Proof.
  intros Hhook Hidle. hooked Hhook.
  cbn [updateColorUnderCursor canvasStage canvasBaseLayer log].
  destruct Hidle as [Hs | [Hl | [s [Hs Hpos]]]].
  - rewrite Hs. step. auto.
  - rewrite Hl. destruct (canvasStage w0); step; auto.
  - rewrite Hs. destruct (canvasBaseLayer w0); step; auto.
    rewrite Hpos. step. traces. auto.
Qed.

(** C6, as the hook has it: the stage and the base layer are looked up
    once per call of the hook, the base layer first.  The sampling closure
    it returns looks nothing up: every call made through it uses the
    handles found then, and what the provider holds at the time of the
    call changes neither its completion nor the world it leaves. *)
Theorem handles_captured_by_hook
  (w0 w0' : World State) (picker : ColorPicker State) :
  useColorPicker reducer w0 = (Normal picker, w0') ->
  lookups (trace w0') = lookups (trace w0) ++ [GetCanvasBaseLayer; GetCanvasStage]
  /\
  (forall w : World State,
     lookups (trace (after (updateColorUnderCursor picker) w)) =
       lookups (trace w))
  /\
  (forall (w : World State) (st : option StageRef) (ly : option LayerRef),
     result (updateColorUnderCursor picker) (setProvider st ly w) =
       result (updateColorUnderCursor picker) w /\
     after (updateColorUnderCursor picker) (setProvider st ly w) =
       setProvider st ly (after (updateColorUnderCursor picker) w)).
Proof.
  intros Hhook. hooked Hhook.
  cbn [updateColorUnderCursor canvasStage canvasBaseLayer log trace].
  split; [| split].
  - traces. rewrite <- app_assoc. reflexivity.
  - intros w.
    destruct (canvasStage w0) as [s|], (canvasBaseLayer w0) as [l|];
      step; try reflexivity.
    destruct (pointerPosition w s) as [pos|]; step.
    + destruct (imageData w l _ _ _ _); step; traces; reflexivity.
    + traces. reflexivity.
  - intros w st ly.
    destruct (canvasStage w0) as [s|], (canvasBaseLayer w0) as [l|];
      step; try (split; reflexivity).
    destruct (pointerPosition w s) as [pos|]; step.
    + destruct (imageData w l _ _ _ _); step; split; reflexivity.
    + split; reflexivity.
Qed.

(** C10: the commit closure does not look at the canvas.  From two worlds
    with the same store, whatever stage, base layer or pointer position
    each of them has or lacks, and whatever the hook found when it built
    each closure, the call returns normally, leaves the same store, the one
    the reducer gives for the commit action, and its only call on a
    collaborator is the dispatch of that action. *)
Theorem commit_ignores_canvas
  (wa0 wa0' wb0 wb0' wa wb : World State) (pa pb : ColorPicker State) :
  useColorPicker reducer wa0 = (Normal pa, wa0') ->
  useColorPicker reducer wb0 = (Normal pb, wb0') ->
  store wa = store wb ->
  result (commitColorUnderCursor pa) wa = Normal tt /\
  result (commitColorUnderCursor pb) wb = Normal tt /\
  store (after (commitColorUnderCursor pa) wa) =
    reducer (store wa) commitColorPickerColor /\
  store (after (commitColorUnderCursor pb) wb) =
    store (after (commitColorUnderCursor pa) wa) /\
  trace (after (commitColorUnderCursor pa) wa) =
    trace wa ++ [Dispatch commitColorPickerColor] /\
  trace (after (commitColorUnderCursor pb) wb) =
    trace wb ++ [Dispatch commitColorPickerColor].
Proof.
  intros Ha Hb Hstore. hooked Ha. hooked Hb. step.
  rewrite Hstore. repeat split; reflexivity.
Qed.

End HookFacts.

(** ** The hook on the colour picker state *)

(** While the preview is absent, a reachable store has committed nothing. *)
Lemma reachable_unset (s : ColorPickerState) :
  reachable s -> preview s = None -> committed s = None.
Proof.
  induction 1 as [| s act Hs IH]; [reflexivity |].
  destruct act as [color |]; cbn [canvasReducer].
  - discriminate.
  - unfold commit. destruct (preview s) eqn:E; cbn [preview]; [discriminate |].
    intros _. apply IH. reflexivity.
Qed.

(** C4: with a preview colour [C] in the store, one commit sets the
    committed colour to [C], and a second commit, with no sample in
    between, leaves the store, hence the committed colour [C], as the first
    one left it. *)
Theorem commit_idempotent
  (w0 w0' w : World ColorPickerState) (picker : ColorPicker ColorPickerState)
  (C : RgbaColor) :
  useColorPicker canvasReducer w0 = (Normal picker, w0') ->
  preview (store w) = Some C ->
  let w1 := after (commitColorUnderCursor picker) w in
  let w2 := after (commitColorUnderCursor picker) w1 in
  committed (store w1) = Some C /\
  committed (store w2) = Some C /\
  store w2 = store w1.
Proof.
  intros Hhook HC. hooked Hhook. cbv zeta. step.
  cbn [canvasReducer]. unfold commit. rewrite HC. cbn [preview committed].
  repeat split; reflexivity.
Qed.

(** C5: while the preview is absent a commit changes nothing in the store;
    in a store reached from the initial one the committed colour is then
    unset, and stays so. *)
Theorem commit_without_preview
  (w0 w0' w : World ColorPickerState) (picker : ColorPicker ColorPickerState) :
  useColorPicker canvasReducer w0 = (Normal picker, w0') ->
  preview (store w) = None ->
  store (after (commitColorUnderCursor picker) w) = store w /\
  (reachable (store w) ->
   committed (store w) = None /\
   committed (store (after (commitColorUnderCursor picker) w)) = None).
Proof.
  intros Hhook Hnone. hooked Hhook. step.
  cbn [canvasReducer]. unfold commit. rewrite Hnone.
  split; [reflexivity |].
  intros Hreach. split; apply reachable_unset; assumption.
Qed.

(** C7: when the read returns the four bytes [cr, cg, cb, ca], the sampling
    call dispatches the colour with [r = cr], [g = cg], [b = cb], [a = ca],
    the bytes as they are and in this order; it becomes the preview colour,
    and a following commit makes it the committed colour. *)
Theorem sample_channel_order
  (w0 w0' w : World ColorPickerState) (picker : ColorPicker ColorPickerState)
  (s : StageRef) (l : LayerRef) (pos : Vector2d) (cr cg cb ca : Z) :
  useColorPicker canvasReducer w0 = (Normal picker, w0') ->
  canvasStage w0 = Some s ->
  canvasBaseLayer w0 = Some l ->
  pointerPosition w s = Some pos ->
  imageData w l (x pos * pixelRatio w)%float (y pos * pixelRatio w)%float
            1%float 1%float = Normal {| data := [cr; cg; cb; ca] |} ->
  let color := {| r := Num cr; g := Num cg; b := Num cb; a := Num ca |} in
  let w1 := after (updateColorUnderCursor picker) w in
  result (updateColorUnderCursor picker) w = Normal tt /\
  dispatched (trace w1) = dispatched (trace w) ++ [setColorPickerColor color] /\
  preview (store w1) = Some color /\
  committed (store (after (commitColorUnderCursor picker) w1)) = Some color.
Proof.
  intros Hhook Hs Hl Hpos Hread. hooked Hhook.
  cbn [updateColorUnderCursor commitColorUnderCursor canvasStage
       canvasBaseLayer log].
  rewrite Hs, Hl. cbv zeta. step. rewrite Hpos. step. rewrite Hread. step.
  traces. repeat split; reflexivity.
Qed.

(** C8: a sampling call, whether it dispatches a colour, does nothing or
    is left by an error of the read, leaves the committed colour as it
    was. *)
Theorem sample_leaves_committed
  (w0 w0' w : World ColorPickerState) (picker : ColorPicker ColorPickerState) :
  useColorPicker canvasReducer w0 = (Normal picker, w0') ->
  committed (store (after (updateColorUnderCursor picker) w)) =
    committed (store w).
Proof.
  intros Hhook. hooked Hhook.
  cbn [updateColorUnderCursor canvasStage canvasBaseLayer log].
  destruct (canvasStage w0) as [s|], (canvasBaseLayer w0) as [l|];
    step; try reflexivity.
  destruct (pointerPosition w s) as [pos|]; step; [| reflexivity].
  destruct (imageData w l _ _ _ _); step; reflexivity.
Qed.

(** C9: after the dispatch of [setColorPickerColor C1] and then of
    [setColorPickerColor C2], the preview colour is [C2], whatever the
    store held before. *)
Theorem preview_last_write_wins
  (w : World ColorPickerState) (C1 C2 : RgbaColor) :
  preview
    (store (after (dispatch canvasReducer (setColorPickerColor C2))
                  (after (dispatch canvasReducer (setColorPickerColor C1)) w)))
  = Some C2.
Proof. reflexivity. Qed.

(** ** The scenarios *)

(** At pixel ratio 2 with the pointer at (10, 20) the one read is at
    (20, 40). *)
Lemma sample_reads_scaled_position_witness :
  exists picker w0',
    useColorPicker canvasReducer Scenario.mounted = (Normal picker, w0') /\
    reads (trace (after (updateColorUnderCursor picker) Scenario.mounted)) =
      [(0%nat, 20%float, 40%float, 1%float, 1%float)].
Proof.
  eexists; eexists; split; [reflexivity |].
  exact (@sample_reads_scaled_position _ canvasReducer
           Scenario.mounted _ Scenario.mounted _ 0%nat 0%nat
           {| x := 10%float; y := 20%float |}
           eq_refl eq_refl eq_refl eq_refl).
Defined.

(** With the pointer at physical (-1, 5) over a layer that rejects reads
    outside its buffer, the sampling call throws: the hook neither clamps
    the coordinates nor catches the error. *)
Lemma out_of_bounds_sample_can_throw :
  ~ (forall (w0 w0' w : World ColorPickerState)
            (picker : ColorPicker ColorPickerState)
            (s : StageRef) (l : LayerRef) (pos : Vector2d),
       useColorPicker canvasReducer w0 = (Normal picker, w0') ->
       canvasStage w0 = Some s ->
       canvasBaseLayer w0 = Some l ->
       pointerPosition w s = Some pos ->
       (x pos * pixelRatio w <? 0)%float = true ->
       result (updateColorUnderCursor picker) w = Normal tt).
Proof.
  intros claim.
  pose proof (claim Scenario.strict _ Scenario.strict _ 0%nat 0%nat
                {| x := (-1)%float; y := 5%float |}
                eq_refl eq_refl eq_refl eq_refl eq_refl) as H.
  vm_compute in H. discriminate H.
Qed.

(** With the pointer at physical (-1, 5) over a layer whose reads outside
    the buffer give transparent black, the colour dispatched is
    (0, 0, 0, 0). *)
Lemma sample_forwards_read_outcome_witness :
  exists picker w0',
    useColorPicker canvasReducer Scenario.lenient = (Normal picker, w0') /\
    result (updateColorUnderCursor picker) Scenario.lenient = Normal tt /\
    dispatched (trace (after (updateColorUnderCursor picker) Scenario.lenient)) =
      [setColorPickerColor {| r := Num 0; g := Num 0; b := Num 0; a := Num 0 |}].
Proof.
  eexists; eexists; split; [reflexivity |].
  exact (proj1 (@sample_forwards_read_outcome _ canvasReducer
                  Scenario.lenient _ Scenario.lenient _ 0%nat 0%nat
                  {| x := (-1)%float; y := 5%float |}
                  eq_refl eq_refl eq_refl eq_refl) eq_refl).
Defined.

(** Before the canvas is mounted a sampling call does nothing. *)
Lemma idle_sample_is_noop_witness :
  exists picker w0',
    useColorPicker canvasReducer Scenario.unmounted = (Normal picker, w0') /\
    result (updateColorUnderCursor picker) Scenario.unmounted = Normal tt /\
    store (after (updateColorUnderCursor picker) Scenario.unmounted) =
      initialState.
Proof.
  eexists; eexists; split; [reflexivity |].
  pose proof (@idle_sample_is_noop _ canvasReducer
                Scenario.unmounted _ Scenario.unmounted _ eq_refl
                (or_introl eq_refl)) as H.
  exact (conj (proj1 H) (proj1 (proj2 H))).
Defined.

(** The store with white as the preview colour. *)
Lemma commit_idempotent_witness :
  let white := {| r := Num 255; g := Num 255; b := Num 255; a := Num 255 |} in
  let w := reduce canvasReducer (setColorPickerColor white) Scenario.mounted in
  exists picker w0',
    useColorPicker canvasReducer Scenario.mounted = (Normal picker, w0') /\
    committed (store (after (commitColorUnderCursor picker) w)) = Some white /\
    committed (store (after (commitColorUnderCursor picker)
                        (after (commitColorUnderCursor picker) w))) = Some white.
Proof.
  intros white w.
  eexists; eexists; split; [reflexivity |].
  pose proof (@commit_idempotent Scenario.mounted _ w _ white eq_refl eq_refl)
    as H.
  exact (conj (proj1 H) (proj1 (proj2 H))).
Defined.

(** A commit in the initial store. *)
Lemma commit_without_preview_witness :
  exists picker w0',
    useColorPicker canvasReducer Scenario.mounted = (Normal picker, w0') /\
    store (after (commitColorUnderCursor picker) Scenario.mounted) =
      initialState /\
    committed (store (after (commitColorUnderCursor picker) Scenario.mounted))
      = None.
Proof.
  eexists; eexists; split; [reflexivity |].
  pose proof (@commit_without_preview Scenario.mounted _ Scenario.mounted _
                eq_refl eq_refl) as H.
  exact (conj (proj1 H) (proj2 (proj2 H reachable_init))).
Defined.

(** A picker built before the canvas is mounted samples nothing once the
    canvas is there: the closure still holds the absent handles, although
    a stage, a base layer and a pointer position are all present at the
    time of the call. *)
Lemma stale_handles_after_mount :
  ~ (forall (w0 w0' w : World ColorPickerState)
            (picker : ColorPicker ColorPickerState)
            (s : StageRef) (l : LayerRef) (pos : Vector2d),
       useColorPicker canvasReducer w0 = (Normal picker, w0') ->
       canvasStage w = Some s ->
       canvasBaseLayer w = Some l ->
       pointerPosition w s = Some pos ->
       reads (trace (after (updateColorUnderCursor picker) w)) =
         reads (trace w) ++
         [(l, (x pos * pixelRatio w)%float, (y pos * pixelRatio w)%float,
           1%float, 1%float)]).
Proof.
  intros claim.
  pose proof (claim Scenario.unmounted _ Scenario.mounted _ 0%nat 0%nat
                {| x := 10%float; y := 20%float |}
                eq_refl eq_refl eq_refl eq_refl) as H.
  vm_compute in H. discriminate H.
Qed.

(** The hook called on the mounted canvas performs the two lookups. *)
Lemma handles_captured_by_hook_witness :
  exists picker w0',
    useColorPicker canvasReducer Scenario.mounted = (Normal picker, w0') /\
    lookups (trace w0') = [GetCanvasBaseLayer; GetCanvasStage] /\
    lookups (trace (after (updateColorUnderCursor picker) Scenario.mounted)) = [].
Proof.
  eexists; eexists; split; [reflexivity |].
  pose proof (@handles_captured_by_hook _ canvasReducer
                Scenario.mounted _ _ eq_refl) as H.
  exact (conj (proj1 H) (proj1 (proj2 H) Scenario.mounted)).
Defined.

(** Pixel ratio 2, pointer at (10, 20), pixel (255, 0, 128, 255) at
    physical (20, 40). *)
Lemma sample_channel_order_witness :
  let color := {| r := Num 255; g := Num 0; b := Num 128; a := Num 255 |} in
  exists picker w0',
    useColorPicker canvasReducer Scenario.mounted = (Normal picker, w0') /\
    dispatched (trace (after (updateColorUnderCursor picker) Scenario.mounted))
      = [setColorPickerColor color] /\
    committed (store (after (commitColorUnderCursor picker)
                        (after (updateColorUnderCursor picker) Scenario.mounted)))
      = Some color.
Proof.
  intros color.
  eexists; eexists; split; [reflexivity |].
  pose proof (@sample_channel_order Scenario.mounted _ Scenario.mounted _
                0%nat 0%nat {| x := 10%float; y := 20%float |}
                255%Z 0%Z 128%Z 255%Z
                eq_refl eq_refl eq_refl eq_refl eq_refl) as H.
  exact (conj (proj1 (proj2 H)) (proj2 (proj2 (proj2 H)))).
Defined.

(** A sample on the mounted canvas leaves the committed colour unset. *)
Lemma sample_leaves_committed_witness :
  exists picker w0',
    useColorPicker canvasReducer Scenario.mounted = (Normal picker, w0') /\
    committed (store (after (updateColorUnderCursor picker) Scenario.mounted))
      = None.
Proof.
  eexists; eexists; split; [reflexivity |].
  exact (@sample_leaves_committed Scenario.mounted _ Scenario.mounted _ eq_refl).
Defined.

(** A commit before and after the canvas is mounted. *)
Lemma commit_ignores_canvas_witness :
  exists pa wa' pb wb',
    useColorPicker canvasReducer Scenario.unmounted = (Normal pa, wa') /\
    useColorPicker canvasReducer Scenario.mounted = (Normal pb, wb') /\
    store (after (commitColorUnderCursor pb) Scenario.mounted) =
      store (after (commitColorUnderCursor pa) Scenario.unmounted).
Proof.
  eexists; eexists; eexists; eexists; split; [reflexivity | split; [reflexivity |]].
  pose proof (@commit_ignores_canvas _ canvasReducer
                Scenario.unmounted _ Scenario.mounted _
                Scenario.unmounted Scenario.mounted _ _
                eq_refl eq_refl eq_refl) as H.
  exact (proj1 (proj2 (proj2 (proj2 H)))).
Defined.

(** ** Further properties of the hook, on any store *)

(** A name of the destructuring pattern is [undefined] exactly when the
    array has no element at its index. *)
Lemma item_undefined_iff (d : list Z) (i : nat) :
  item d i = Undefined <-> (List.length d <= i)%nat.
Proof.
  unfold item. destruct (nth_error d i) eqn:E.
  - split; [discriminate |].
    intros Hlen. apply nth_error_None in Hlen. congruence.
  - split; [| reflexivity]. intros _. apply nth_error_None. exact E.
Qed.

Section MoreHookFacts.

Context {State : Type}.
Variable reducer : State -> action -> State.

(** The world a sampling call leaves when its read returns. *)
Lemma sample_returns
  (w0 w0' w : World State) (picker : ColorPicker State)
  (s : StageRef) (l : LayerRef) (pos : Vector2d) (image : ImageData) :
  useColorPicker reducer w0 = (Normal picker, w0') ->
  canvasStage w0 = Some s ->
  canvasBaseLayer w0 = Some l ->
  pointerPosition w s = Some pos ->
  imageData w l (x pos * pixelRatio w)%float (y pos * pixelRatio w)%float
            1%float 1%float = Normal image ->
  let act :=
    setColorPickerColor
      {| r := item (data image) 0; g := item (data image) 1;
         b := item (data image) 2; a := item (data image) 3 |} in
  updateColorUnderCursor picker w =
    (Normal tt,
     log (Dispatch act)
       (reduce reducer act
          (log (GetImageData l (x pos * pixelRatio w)%float
                             (y pos * pixelRatio w)%float 1%float 1%float)
             (log (GetPointerPosition s) w)))).
Proof.
  intros Hhook Hs Hl Hpos Hread. hooked Hhook.
  cbn [updateColorUnderCursor canvasStage canvasBaseLayer log].
  rewrite Hs, Hl. cbv zeta. step. rewrite Hpos. step. rewrite Hread.
  reflexivity.
Qed.

(** X1: a sampling call whose read returns makes three calls on its
    collaborators, in this order: it asks the stage for the pointer
    position, reads the pixel, and dispatches the colour built from the
    bytes read; the store is the reducer applied once, to that action. *)
Theorem sample_call_sequence
  (w0 w0' w : World State) (picker : ColorPicker State)
  (s : StageRef) (l : LayerRef) (pos : Vector2d) (image : ImageData) :
  useColorPicker reducer w0 = (Normal picker, w0') ->
  canvasStage w0 = Some s ->
  canvasBaseLayer w0 = Some l ->
  pointerPosition w s = Some pos ->
  imageData w l (x pos * pixelRatio w)%float (y pos * pixelRatio w)%float
            1%float 1%float = Normal image ->
  let act :=
    setColorPickerColor
      {| r := item (data image) 0; g := item (data image) 1;
         b := item (data image) 2; a := item (data image) 3 |} in
  result (updateColorUnderCursor picker) w = Normal tt /\
  trace (after (updateColorUnderCursor picker) w) =
    trace w ++
    [GetPointerPosition s;
     GetImageData l (x pos * pixelRatio w)%float (y pos * pixelRatio w)%float
                  1%float 1%float;
     Dispatch act] /\
  store (after (updateColorUnderCursor picker) w) = reducer (store w) act.
Proof.
  intros Hhook Hs Hl Hpos Hread. cbv zeta. unfold result, after.
  rewrite (sample_returns w Hhook Hs Hl Hpos Hread).
  cbn [fst snd log reduce trace store].
  repeat split. rewrite <- !app_assoc. reflexivity.
Qed.

(** X2: when the hook found no stage or no base layer, a sampling call
    returns at once: the world is left exactly as it was, the stage is not
    even asked for the pointer position. *)
Theorem missing_handle_leaves_world
  (w0 w0' w : World State) (picker : ColorPicker State) :
  useColorPicker reducer w0 = (Normal picker, w0') ->
  canvasStage w0 = None \/ canvasBaseLayer w0 = None ->
  updateColorUnderCursor picker w = (Normal tt, w).
Proof.
  intros Hhook Hmissing. hooked Hhook.
  cbn [updateColorUnderCursor canvasStage canvasBaseLayer log].
  destruct Hmissing as [-> | ->]; [reflexivity |].
  destruct (canvasStage w0); reflexivity.
Qed.

(** X3: when both handles were found and the stage reports no pointer
    position, the query of the pointer is the only call made: the pixel
    ratio is not used, no pixel is read, nothing reaches the store. *)
Theorem missing_position_only_queries_pointer
  (w0 w0' w : World State) (picker : ColorPicker State)
  (s : StageRef) (l : LayerRef) :
  useColorPicker reducer w0 = (Normal picker, w0') ->
  canvasStage w0 = Some s ->
  canvasBaseLayer w0 = Some l ->
  pointerPosition w s = None ->
  updateColorUnderCursor picker w = (Normal tt, log (GetPointerPosition s) w).
Proof.
  intros Hhook Hs Hl Hpos. hooked Hhook.
  cbn [updateColorUnderCursor canvasStage canvasBaseLayer log].
  rewrite Hs, Hl. step. rewrite Hpos. reflexivity.
Qed.

(** X4: only the first four bytes of the read make the colour: whatever
    follows them in the data is ignored. *)
Theorem sample_ignores_bytes_past_fourth
  (w0 w0' w : World State) (picker : ColorPicker State)
  (s : StageRef) (l : LayerRef) (pos : Vector2d)
  (cr cg cb ca : Z) (rest : list Z) :
  useColorPicker reducer w0 = (Normal picker, w0') ->
  canvasStage w0 = Some s ->
  canvasBaseLayer w0 = Some l ->
  pointerPosition w s = Some pos ->
  imageData w l (x pos * pixelRatio w)%float (y pos * pixelRatio w)%float
            1%float 1%float
    = Normal {| data := cr :: cg :: cb :: ca :: rest |} ->
  dispatched (trace (after (updateColorUnderCursor picker) w)) =
    dispatched (trace w) ++
    [setColorPickerColor
       {| r := Num cr; g := Num cg; b := Num cb; a := Num ca |}].
Proof.
  intros Hhook Hs Hl Hpos Hread.
  unfold after. rewrite (sample_returns w Hhook Hs Hl Hpos Hread).
  cbn [snd log reduce trace data item nth_error]. traces. reflexivity.
Qed.

(** X5: the hook does not check how many bytes the read returned.  It
    dispatches a colour in any case, and a channel of that colour is
    [undefined] exactly when the data has no byte at its index. *)
Theorem short_read_gives_undefined_channels
  (w0 w0' w : World State) (picker : ColorPicker State)
  (s : StageRef) (l : LayerRef) (pos : Vector2d) (image : ImageData) :
  useColorPicker reducer w0 = (Normal picker, w0') ->
  canvasStage w0 = Some s ->
  canvasBaseLayer w0 = Some l ->
  pointerPosition w s = Some pos ->
  imageData w l (x pos * pixelRatio w)%float (y pos * pixelRatio w)%float
            1%float 1%float = Normal image ->
  exists color,
    dispatched (trace (after (updateColorUnderCursor picker) w)) =
      dispatched (trace w) ++ [setColorPickerColor color] /\
    (r color = Undefined <-> (List.length (data image) <= 0)%nat) /\
    (g color = Undefined <-> (List.length (data image) <= 1)%nat) /\
    (b color = Undefined <-> (List.length (data image) <= 2)%nat) /\
    (a color = Undefined <-> (List.length (data image) <= 3)%nat).
Proof.
  intros Hhook Hs Hl Hpos Hread.
  unfold after. rewrite (sample_returns w Hhook Hs Hl Hpos Hread).
  cbn [snd log reduce trace]. eexists. split.
  - traces. reflexivity.
  - cbn [r g b a]. repeat split; apply item_undefined_iff.
Qed.

(** X6: when the read returns at least four elements and all of them are
    bytes, every channel of the colour dispatched is a number between 0
    and 255. *)
Theorem sample_channels_are_bytes
  (w0 w0' w : World State) (picker : ColorPicker State)
  (s : StageRef) (l : LayerRef) (pos : Vector2d) (image : ImageData) :
  useColorPicker reducer w0 = (Normal picker, w0') ->
  canvasStage w0 = Some s ->
  canvasBaseLayer w0 = Some l ->
  pointerPosition w s = Some pos ->
  imageData w l (x pos * pixelRatio w)%float (y pos * pixelRatio w)%float
            1%float 1%float = Normal image ->
  (4 <= List.length (data image))%nat ->
  forallb uint8 (data image) = true ->
  exists cr cg cb ca,
    dispatched (trace (after (updateColorUnderCursor picker) w)) =
      dispatched (trace w) ++
      [setColorPickerColor
         {| r := Num cr; g := Num cg; b := Num cb; a := Num ca |}] /\
    uint8 cr = true /\ uint8 cg = true /\ uint8 cb = true /\ uint8 ca = true.
Proof.
  intros Hhook Hs Hl Hpos Hread Hlen Hbytes.
  unfold after. rewrite (sample_returns w Hhook Hs Hl Hpos Hread).
  cbn [snd log reduce trace].
  destruct image as [d]. cbn [data] in *.
  destruct d as [| cr [| cg [| cb [| ca rest]]]];
    try (cbn [List.length] in Hlen; repeat apply le_S_n in Hlen;
         apply Nat.nle_succ_0 in Hlen; contradiction).
  cbn [forallb] in Hbytes.
  apply andb_prop in Hbytes as [Hr Hbytes].
  apply andb_prop in Hbytes as [Hg Hbytes].
  apply andb_prop in Hbytes as [Hb Hbytes].
  apply andb_prop in Hbytes as [Ha _].
  exists cr, cg, cb, ca. split.
  - traces. reflexivity.
  - auto.
Qed.

(** Whatever its outcome, a sampling call leaves the canvas as it was. *)
Lemma sample_same_canvas
  (w0 w0' : World State) (picker : ColorPicker State) :
  useColorPicker reducer w0 = (Normal picker, w0') ->
  forall w : World State,
    sameCanvas w (after (updateColorUnderCursor picker) w).
Proof.
  intros Hhook w. hooked Hhook. unfold sameCanvas.
  cbn [updateColorUnderCursor canvasStage canvasBaseLayer log].
  destruct (canvasStage w0) as [s|], (canvasBaseLayer w0) as [l|];
    step; try (repeat split; reflexivity).
  destruct (pointerPosition w s) as [pos|]; step;
    [| repeat split; reflexivity].
  destruct (imageData w l _ _ _ _); step; repeat split; reflexivity.
Qed.


(** X8: a sampling call dispatches at most one action, and never the
    commit action: either nothing is dispatched and the store is as it
    was, or one [setColorPickerColor] is dispatched and the store is the
    reducer applied once to it. *)
Theorem sample_dispatches_at_most_one_colour
  (w0 w0' w : World State) (picker : ColorPicker State) :
  useColorPicker reducer w0 = (Normal picker, w0') ->
  (dispatched (trace (after (updateColorUnderCursor picker) w)) =
     dispatched (trace w) /\
   store (after (updateColorUnderCursor picker) w) = store w)
  \/
  (exists color,
     dispatched (trace (after (updateColorUnderCursor picker) w)) =
       dispatched (trace w) ++ [setColorPickerColor color] /\
     store (after (updateColorUnderCursor picker) w) =
       reducer (store w) (setColorPickerColor color)).
Proof.
  intros Hhook. hooked Hhook.
  cbn [updateColorUnderCursor canvasStage canvasBaseLayer log].
  destruct (canvasStage w0) as [s|], (canvasBaseLayer w0) as [l|];
    step; try (left; split; reflexivity).
  destruct (pointerPosition w s) as [pos|]; step.
  - destruct (imageData w l _ _ _ _) as [image | e]; step.
    + right. eexists. traces. split; reflexivity.
    + left. traces. split; reflexivity.
  - left. traces. split; reflexivity.
Qed.

(** X9: the closures depend on the world the hook ran in through the two
    handles only.  Two calls of the hook that found the same stage and the
    same base layer return the same picker, whatever the pointer, the
    pixels, the pixel ratio and the store were at the time. *)
Theorem pickers_agree_on_same_handles
  (wa wa' wb wb' : World State) (pa pb : ColorPicker State) :
  useColorPicker reducer wa = (Normal pa, wa') ->
  useColorPicker reducer wb = (Normal pb, wb') ->
  canvasStage wa = canvasStage wb ->
  canvasBaseLayer wa = canvasBaseLayer wb ->
  pa = pb.
Proof.
  intros Ha Hb Hs Hl. hooked Ha. hooked Hb.
  cbn [canvasStage canvasBaseLayer log].
  rewrite Hs, Hl. reflexivity.
Qed.

(** X10: of all the pixels of the layer a sampling call depends on one.
    Two worlds with the same store, the same pixel ratio and the same
    pointer position on the stage of the picker, whose layer gives the same
    answer to the one read at the scaled position, get the same completion
    and the same store, however the rest of the layer differs. *)
Theorem sample_depends_on_one_pixel
  (w0 w0' wa wb : World State) (picker : ColorPicker State) :
  useColorPicker reducer w0 = (Normal picker, w0') ->
  store wa = store wb ->
  pixelRatio wa = pixelRatio wb ->
  (forall s, canvasStage w0 = Some s ->
             pointerPosition wa s = pointerPosition wb s) ->
  (forall s l pos,
     canvasStage w0 = Some s ->
     canvasBaseLayer w0 = Some l ->
     pointerPosition wa s = Some pos ->
     imageData wa l (x pos * pixelRatio wa)%float (y pos * pixelRatio wa)%float
               1%float 1%float =
     imageData wb l (x pos * pixelRatio wa)%float (y pos * pixelRatio wa)%float
               1%float 1%float) ->
  result (updateColorUnderCursor picker) wa =
    result (updateColorUnderCursor picker) wb /\
  store (after (updateColorUnderCursor picker) wa) =
    store (after (updateColorUnderCursor picker) wb).
Proof.
  intros Hhook Hstore Hratio Hptr Hpixel. hooked Hhook.
  cbn [updateColorUnderCursor canvasStage canvasBaseLayer log] in *.
  destruct (canvasStage w0) as [s|], (canvasBaseLayer w0) as [l|];
    step; auto.
  specialize (Hptr s eq_refl). specialize (Hpixel s l).
  rewrite <- Hptr.
  destruct (pointerPosition wa s) as [pos|]; step; auto.
  specialize (Hpixel pos eq_refl eq_refl eq_refl).
  rewrite <- Hratio, <- Hpixel.
  destruct (imageData wa l _ _ _ _); step; rewrite Hstore; auto.
Qed.

(** X11: sampling is repeatable.  Two sampling calls in a row, with
    nothing moving on the canvas in between, read the same pixel and
    dispatch the same colour twice. *)
Theorem repeated_sample_dispatches_same_colour
  (w0 w0' w : World State) (picker : ColorPicker State)
  (s : StageRef) (l : LayerRef) (pos : Vector2d) (image : ImageData) :
  useColorPicker reducer w0 = (Normal picker, w0') ->
  canvasStage w0 = Some s ->
  canvasBaseLayer w0 = Some l ->
  pointerPosition w s = Some pos ->
  imageData w l (x pos * pixelRatio w)%float (y pos * pixelRatio w)%float
            1%float 1%float = Normal image ->
  let act :=
    setColorPickerColor
      {| r := item (data image) 0; g := item (data image) 1;
         b := item (data image) 2; a := item (data image) 3 |} in
  let w1 := after (updateColorUnderCursor picker) w in
  let w2 := after (updateColorUnderCursor picker) w1 in
  dispatched (trace w2) = dispatched (trace w) ++ [act; act] /\
  store w2 = reducer (reducer (store w) act) act.
Proof.
  intros Hhook Hs Hl Hpos Hread act w1 w2.
  destruct (sample_same_canvas Hhook w) as (_ & _ & Hptr & Hpix & Hratio).
  fold w1 in Hptr, Hpix, Hratio.
  assert (Hpos1 : pointerPosition w1 s = Some pos) by (rewrite Hptr; exact Hpos).
  assert (Hread1 : imageData w1 l (x pos * pixelRatio w1)%float
                             (y pos * pixelRatio w1)%float 1%float 1%float
                   = Normal image)
    by (rewrite Hpix, Hratio; exact Hread).
  pose proof (sample_returns w1 Hhook Hs Hl Hpos1 Hread1) as Hrun2.
  pose proof (sample_returns w Hhook Hs Hl Hpos Hread) as Hrun1.
  cbv zeta in Hrun1, Hrun2. fold act in Hrun1, Hrun2.
  assert (Htrace1 : trace w1 = trace w ++
            [GetPointerPosition s;
             GetImageData l (x pos * pixelRatio w)%float
                          (y pos * pixelRatio w)%float 1%float 1%float;
             Dispatch act])
    by (unfold w1, after; rewrite Hrun1; cbn [snd log reduce trace];
        rewrite <- !app_assoc; reflexivity).
  assert (Hstore1 : store w1 = reducer (store w) act)
    by (unfold w1, after; rewrite Hrun1; reflexivity).
  unfold w2, after. rewrite Hrun2. cbn [snd log reduce trace store].
  rewrite Htrace1, Hstore1. split; [| reflexivity].
  traces. rewrite <- !app_assoc. reflexivity.
Qed.

End MoreHookFacts.

(** ** Further scenarios *)

(** The three calls of a sample on the mounted canvas. *)
Lemma sample_call_sequence_witness :
  let color := {| r := Num 255; g := Num 0; b := Num 128; a := Num 255 |} in
  exists picker w0',
    useColorPicker canvasReducer Scenario.mounted = (Normal picker, w0') /\
    trace (after (updateColorUnderCursor picker) Scenario.mounted) =
      [GetPointerPosition 0%nat;
       GetImageData 0%nat 20%float 40%float 1%float 1%float;
       Dispatch (setColorPickerColor color)].
Proof.
  intros color.
  eexists; eexists; split; [reflexivity |].
  exact (proj1 (proj2 (@sample_call_sequence _ canvasReducer
                         Scenario.mounted _ Scenario.mounted _ 0%nat 0%nat
                         {| x := 10%float; y := 20%float |}
                         {| data := [255; 0; 128; 255]%Z |}
                         eq_refl eq_refl eq_refl eq_refl eq_refl))).
Defined.

(** A picker built before the canvas is mounted, called once it is. *)
Lemma missing_handle_leaves_world_witness :
  exists picker w0',
    useColorPicker canvasReducer Scenario.unmounted = (Normal picker, w0') /\
    updateColorUnderCursor picker Scenario.mounted =
      (Normal tt, Scenario.mounted).
Proof.
  eexists; eexists; split; [reflexivity |].
  exact (@missing_handle_leaves_world _ canvasReducer
           Scenario.unmounted _ Scenario.mounted _ eq_refl
           (or_introl eq_refl)).
Defined.

(** A sample while the pointer is off the stage. *)
Lemma missing_position_only_queries_pointer_witness :
  exists picker w0',
    useColorPicker canvasReducer Mock.pointerless = (Normal picker, w0') /\
    trace (after (updateColorUnderCursor picker) Mock.pointerless) =
      [GetPointerPosition 0%nat].
Proof.
  eexists; eexists; split; [reflexivity |].
  exact (f_equal (fun out => trace (snd out))
           (@missing_position_only_queries_pointer _ canvasReducer
              Mock.pointerless _ Mock.pointerless _ 0%nat 0%nat
              eq_refl eq_refl eq_refl eq_refl)).
Defined.

(** A read answering with eight bytes. *)
Lemma sample_ignores_bytes_past_fourth_witness :
  exists picker w0',
    useColorPicker canvasReducer Mock.wide = (Normal picker, w0') /\
    dispatched (trace (after (updateColorUnderCursor picker) Mock.wide)) =
      [setColorPickerColor {| r := Num 1; g := Num 2; b := Num 3; a := Num 4 |}].
Proof.
  eexists; eexists; split; [reflexivity |].
  exact (@sample_ignores_bytes_past_fourth _ canvasReducer
           Mock.wide _ Mock.wide _ 0%nat 0%nat
           {| x := 10%float; y := 20%float |} 1%Z 2%Z 3%Z 4%Z [5; 6; 7; 8]%Z
           eq_refl eq_refl eq_refl eq_refl eq_refl).
Defined.

(** A read answering with two bytes: blue and alpha are undefined. *)
Lemma short_read_gives_undefined_channels_witness :
  exists picker w0',
    useColorPicker canvasReducer Mock.narrow = (Normal picker, w0') /\
    exists color,
      dispatched (trace (after (updateColorUnderCursor picker) Mock.narrow)) =
        [setColorPickerColor color] /\
      b color = Undefined /\ a color = Undefined.
Proof.
  eexists; eexists; split; [reflexivity |].
  destruct (@short_read_gives_undefined_channels _ canvasReducer
              Mock.narrow _ Mock.narrow _ 0%nat 0%nat
              {| x := 10%float; y := 20%float |} {| data := [9; 8]%Z |}
              eq_refl eq_refl eq_refl eq_refl eq_refl)
    as [color [Hd [_ [_ [Hb Ha]]]]].
  exists color. split; [exact Hd |]. split.
  - apply (proj2 Hb). apply le_n.
  - apply (proj2 Ha). apply le_S, le_n.
Defined.

(** The bytes of the pixel at (20, 40). *)
Lemma sample_channels_are_bytes_witness :
  exists picker w0',
    useColorPicker canvasReducer Scenario.mounted = (Normal picker, w0') /\
    exists cr cg cb ca,
      dispatched (trace (after (updateColorUnderCursor picker) Scenario.mounted))
        = [setColorPickerColor
             {| r := Num cr; g := Num cg; b := Num cb; a := Num ca |}] /\
      uint8 cr = true /\ uint8 cg = true /\ uint8 cb = true /\ uint8 ca = true.
Proof.
  eexists; eexists; split; [reflexivity |].
  exact (@sample_channels_are_bytes _ canvasReducer
           Scenario.mounted _ Scenario.mounted _ 0%nat 0%nat
           {| x := 10%float; y := 20%float |}
           {| data := [255; 0; 128; 255]%Z |}
           eq_refl eq_refl eq_refl eq_refl eq_refl (le_n 4) eq_refl).
Defined.


(** One colour is dispatched on the mounted canvas. *)
Lemma sample_dispatches_at_most_one_colour_witness :
  exists picker w0',
    useColorPicker canvasReducer Scenario.mounted = (Normal picker, w0') /\
    ((dispatched (trace (after (updateColorUnderCursor picker) Scenario.mounted))
        = [] /\
      store (after (updateColorUnderCursor picker) Scenario.mounted)
        = initialState)
     \/
     (exists color,
        dispatched (trace (after (updateColorUnderCursor picker) Scenario.mounted))
          = [setColorPickerColor color] /\
        store (after (updateColorUnderCursor picker) Scenario.mounted)
          = canvasReducer initialState (setColorPickerColor color))).
Proof.
  eexists; eexists; split; [reflexivity |].
  exact (@sample_dispatches_at_most_one_colour _ canvasReducer
           Scenario.mounted _ Scenario.mounted _ eq_refl).
Defined.

(** The hook before and after the layer is repainted. *)
Lemma pickers_agree_on_same_handles_witness :
  exists pa wa' pb wb',
    useColorPicker canvasReducer Scenario.mounted = (Normal pa, wa') /\
    useColorPicker canvasReducer Mock.repainted = (Normal pb, wb') /\
    pa = pb.
Proof.
  eexists; eexists; eexists; eexists;
    split; [reflexivity | split; [reflexivity |]].
  exact (@pickers_agree_on_same_handles _ canvasReducer
           Scenario.mounted _ Mock.repainted _ _ _
           eq_refl eq_refl eq_refl eq_refl).
Defined.

(** The layer repainted everywhere but under the pointer. *)
Lemma sample_depends_on_one_pixel_witness :
  exists picker w0',
    useColorPicker canvasReducer Scenario.mounted = (Normal picker, w0') /\
    store (after (updateColorUnderCursor picker) Scenario.mounted) =
      store (after (updateColorUnderCursor picker) Mock.repainted).
Proof.
  eexists; eexists; split; [reflexivity |].
  refine (proj2 (@sample_depends_on_one_pixel _ canvasReducer
                   Scenario.mounted _ Scenario.mounted Mock.repainted _
                   eq_refl eq_refl eq_refl (fun _ _ => eq_refl) _)).
  intros s l pos _ _ Hpos. injection Hpos as <-. reflexivity.
Defined.

(** Two samples in a row on the mounted canvas. *)
Lemma repeated_sample_dispatches_same_colour_witness :
  let color := {| r := Num 255; g := Num 0; b := Num 128; a := Num 255 |} in
  exists picker w0',
    useColorPicker canvasReducer Scenario.mounted = (Normal picker, w0') /\
    dispatched
      (trace (after (updateColorUnderCursor picker)
                (after (updateColorUnderCursor picker) Scenario.mounted))) =
      [setColorPickerColor color; setColorPickerColor color].
Proof.
  intros color.
  eexists; eexists; split; [reflexivity |].
  exact (proj1 (@repeated_sample_dispatches_same_colour _ canvasReducer
                  Scenario.mounted _ Scenario.mounted _ 0%nat 0%nat
                  {| x := 10%float; y := 20%float |}
                  {| data := [255; 0; 128; 255]%Z |}
                  eq_refl eq_refl eq_refl eq_refl eq_refl)).
Defined.
